(** * Interactive validation form: validator and form state machine

    Shallow embedding of [src/components/InteractiveForm.tsx] (with the
    types of [src/types.ts]): the [validate] callback, the four event
    handlers, the [isFormValid] memo, and the properties the specification
    states about them.

    JavaScript strings are sequences of UTF-16 code units; the regular
    expressions of the source carry no [u] flag, so they too work on code
    units.  A string value is therefore a [list N], one number per code
    unit. *)

From Stdlib Require Import NArith Ascii String.
From stdpp Require Import gmap strings list fin_maps.

Local Open Scope N_scope.

(** ** JavaScript string primitives *)

Module JsString.

Definition code_unit := N.
Definition jsstring := list code_unit.

(** A source literal made of ASCII characters, as its code units. *)
Definition lit (s : string) : jsstring :=
  map N_of_ascii (list_ascii_of_string s).

(** ECMAScript WhiteSpace and LineTerminator code points: TAB, LF, VT, FF,
    CR, SP, NBSP, the Unicode space separators, LS, PS and ZWNBSP.  This is
    the set that [String.prototype.trim] strips and that [\s] matches. *)
Definition is_space (c : code_unit) : bool :=
  ((9 <=? c) && (c <=? 13))
  || (c =? 32) || (c =? 160) || (c =? 0x1680)
  || ((0x2000 <=? c) && (c <=? 0x200a))
  || (c =? 0x2028) || (c =? 0x2029) || (c =? 0x202f)
  || (c =? 0x205f) || (c =? 0x3000) || (c =? 0xfeff).

(** [\d] *)
Definition is_digit (c : code_unit) : bool := (48 <=? c) && (c <=? 57).
(** [[a-z]] *)
Definition is_lower (c : code_unit) : bool := (97 <=? c) && (c <=? 122).
(** [[A-Z]] *)
Definition is_upper (c : code_unit) : bool := (65 <=? c) && (c <=? 90).

Fixpoint trimStart (s : jsstring) : jsstring :=
  match s with
  | c :: s' => if is_space c then trimStart s' else s
  | [] => []
  end.

Definition trimEnd (s : jsstring) : jsstring := rev (trimStart (rev s)).

(** [s.trim()] *)
Definition trim (s : jsstring) : jsstring := trimEnd (trimStart s).

(** Truthiness of a string value: every string but the empty one. *)
Definition truthy (s : jsstring) : bool :=
  match s with [] => false | _ :: _ => true end.

(** [s !== ''] *)
Definition nonempty (s : jsstring) : bool := truthy s.

(** [s.replace(/\s+/g, '')]: every run of white space is deleted, which
    leaves the code units that are not white space, in order. *)
Definition remove_whitespace (s : jsstring) : jsstring :=
  filter (fun c => is_space c = false) s.

End JsString.

Import JsString.

(** ** Regular expressions *)

Module Regex.

(** The fragment of the pattern language that the source uses: character
    classes, concatenation, quantifiers.  [Never] and [Alt] are needed
    for derivatives and for [r?]. *)
Inductive regex : Type :=
| Never
| Eps
| Class (p : code_unit -> bool)
| Seq (r1 r2 : regex)
| Alt (r1 r2 : regex)
| Star (r : regex).

(** [r+], [r?], [r{n}], [r{0,k}] and [r{m,n}] *)
Definition Plus (r : regex) : regex := Seq r (Star r).
Definition Opt (r : regex) : regex := Alt Eps r.

Fixpoint Power (r : regex) (n : nat) : regex :=
  match n with
  | O => Eps
  | S n' => Seq r (Power r n')
  end.

Fixpoint UpTo (r : regex) (k : nat) : regex :=
  match k with
  | O => Eps
  | S k' => Opt (Seq r (UpTo r k'))
  end.

Definition Range (r : regex) (m n : nat) : regex :=
  Seq (Power r m) (UpTo r (n - m)).

Definition Chr (c : code_unit) : regex := Class (N.eqb c).
Definition AnyUnit : regex := Class (fun _ => true).

(** Membership in a character class, as a proposition. *)
Definition in_class (p : code_unit -> bool) (c : code_unit) : Prop :=
  p c = true.

(** *** Matching by derivatives *)

Fixpoint nullable (r : regex) : bool :=
  match r with
  | Never => false
  | Eps => true
  | Class _ => false
  | Seq r1 r2 => nullable r1 && nullable r2
  | Alt r1 r2 => nullable r1 || nullable r2
  | Star _ => true
  end.

Fixpoint deriv (c : code_unit) (r : regex) : regex :=
  match r with
  | Never => Never
  | Eps => Never
  | Class p => if p c then Eps else Never
  | Seq r1 r2 =>
      if nullable r1
      then Alt (Seq (deriv c r1) r2) (deriv c r2)
      else Seq (deriv c r1) r2
  | Alt r1 r2 => Alt (deriv c r1) (deriv c r2)
  | Star r1 => Seq (deriv c r1) (Star r1)
  end.

Fixpoint matches (r : regex) (s : jsstring) : bool :=
  match s with
  | [] => nullable r
  | c :: s' => matches (deriv c r) s'
  end.

(** [/^r$/.test(s)]: the whole input has to match. *)
Definition test_anchored (r : regex) (s : jsstring) : bool := matches r s.

(** [/r/.test(s)]: some substring of the input has to match. *)
Definition test_search (r : regex) (s : jsstring) : bool :=
  matches (Seq (Star AnyUnit) (Seq r (Star AnyUnit))) s.

(** *** The language of a pattern *)

Inductive lang : regex -> jsstring -> Prop :=
| lang_eps : lang Eps []
| lang_class p c : p c = true -> lang (Class p) [c]
| lang_seq r1 r2 s1 s2 :
    lang r1 s1 -> lang r2 s2 -> lang (Seq r1 r2) (s1 ++ s2)
| lang_alt_l r1 r2 s : lang r1 s -> lang (Alt r1 r2) s
| lang_alt_r r1 r2 s : lang r2 s -> lang (Alt r1 r2) s
| lang_star_nil r : lang (Star r) []
| lang_star_app r s1 s2 :
    lang r s1 -> lang (Star r) s2 -> lang (Star r) (s1 ++ s2).

End Regex.

Import Regex.

(** ** The data model ([src/types.ts]) *)

(** [keyof FormState] *)
Inductive field : Type := Name | Email | Phone | Password.

#[global] Instance field_eq_dec : EqDecision field.
Proof. solve_decision. Defined.

Definition field_code (k : field) : nat :=
  match k with Name => 0 | Email => 1 | Phone => 2 | Password => 3 end%nat.

Definition field_of_code (n : nat) : field :=
  match n with
  | 0 => Name | 1 => Email | 2 => Phone | _ => Password
  end%nat.

#[global] Instance field_countable : Countable field.
Proof.
  apply (inj_countable' field_code field_of_code).
  intros []; reflexivity.
Defined.

(** [interface FormState]: the four keys are always there. *)
Record FormState : Type := mkFormState {
  name : jsstring;
  email : jsstring;
  phone : jsstring;
  password : jsstring;
}.

(** [formData[key]] *)
Definition get (d : FormState) (k : field) : jsstring :=
  match k with
  | Name => name d
  | Email => email d
  | Phone => phone d
  | Password => password d
  end.

(** [{ ...d, [key]: v }] *)
Definition set (d : FormState) (k : field) (v : jsstring) : FormState :=
  match k with
  | Name => mkFormState v (email d) (phone d) (password d)
  | Email => mkFormState (name d) v (phone d) (password d)
  | Phone => mkFormState (name d) (email d) v (password d)
  | Password => mkFormState (name d) (email d) (phone d) v
  end.

(** [Object.keys(formData)] and [Object.values(formData)] *)
Definition keys : list field := [Name; Email; Phone; Password].
Definition values (d : FormState) : list jsstring := map (get d) keys.

(** A validation result, [string | undefined]. *)
Definition message := option string.

(** Truthiness of a [string | undefined]: defined and not empty. *)
Definition message_truthy (e : message) : bool :=
  match e with
  | Some (String _ _) => true
  | Some EmptyString => false
  | None => false
  end.

(** [interface FormErrors]: every key is optional, and a key that is there
    may hold [undefined] (the handlers store [validate]'s result as it
    is).  [m !! k = None]: no such key; [Some None]: the key holds
    [undefined]; [Some (Some msg)]: the key holds a message. *)
Abbreviation FormErrors := (gmap field message).

(** [Partial<Record<keyof FormState, boolean>>] *)
Abbreviation Touched := (gmap field bool).

(** [errors[key]]: [undefined] for a missing key. *)
Definition error_at (m : FormErrors) (k : field) : message :=
  default None (m !! k).

(** [touched[key]] in a condition. *)
Definition is_touched (t : Touched) (k : field) : bool :=
  default false (t !! k).

(** [Object.keys(m).length === 0] *)
Definition no_keys (m : FormErrors) : bool := Nat.eqb (size m) 0.

(** ** The validator *)

(** [[^\s@]] *)
Definition not_space_or_at (c : code_unit) : bool :=
  negb (is_space c || (c =? 64)).

(** [[@$!%*?&]] *)
Definition is_special (c : code_unit) : bool :=
  (c =? 64) || (c =? 36) || (c =? 33) || (c =? 37)
  || (c =? 42) || (c =? 63) || (c =? 38).

(** [/^[^\s@]+@[^\s@]+\.[^\s@]+$/] *)
Definition email_re : regex :=
  Seq (Plus (Class not_space_or_at))
   (Seq (Chr 64)
    (Seq (Plus (Class not_space_or_at))
     (Seq (Chr 46)
          (Plus (Class not_space_or_at))))).

(** [/^\d{10,15}$/] *)
Definition phone_re : regex := Range (Class is_digit) 10 15.

Definition msg_name_required : string := "Name is required.".
Definition msg_email_required : string := "Email is required.".
Definition msg_email_format : string := "Invalid email format.".
Definition msg_phone_required : string := "Phone number is required.".
Definition msg_phone_digits : string := "Phone must be 10 to 15 digits.".
Definition msg_password_required : string := "Password is required.".
Definition msg_password_length : string :=
  "Password must be at least 8 characters long.".
Definition msg_password_lower : string := "Must contain a lowercase letter.".
Definition msg_password_upper : string := "Must contain an uppercase letter.".
Definition msg_password_digit : string := "Must contain a number.".
Definition msg_password_special : string :=
  "Must contain a special character (@$!%*?&).".

Definition validate (key : field) (value : jsstring) : message :=
  match key with
  | Name =>
      if truthy (trim value) then None else Some msg_name_required
  | Email =>
      if negb (truthy value) then Some msg_email_required
      else if negb (test_anchored email_re value) then Some msg_email_format
      else None
  | Phone =>
      if negb (truthy value) then Some msg_phone_required
      else if negb (test_anchored phone_re (remove_whitespace value))
           then Some msg_phone_digits
      else None
  | Password =>
      if negb (truthy value) then Some msg_password_required
      else if Nat.ltb (length value) 8 then Some msg_password_length
      else if negb (test_search (Class is_lower) value)
           then Some msg_password_lower
      else if negb (test_search (Class is_upper) value)
           then Some msg_password_upper
      else if negb (test_search (Class is_digit) value)
           then Some msg_password_digit
      else if negb (test_search (Class is_special) value)
           then Some msg_password_special
      else None
  end.

(** ** The component state and its handlers *)

Record state : Type := mkState {
  formData : FormState;
  errors : FormErrors;
  touched : Touched;
  showPassword : bool;
  isSubmitted : bool;
}.

(** The four empty values of the first [useState]. *)
Definition emptyForm : FormState := mkFormState [] [] [] [].

(** The state of a freshly mounted component. *)
Definition initial : state := mkState emptyForm ∅ ∅ false false.

(** The two views of the component: the form, or the success screen. *)
Inductive phase : Type := editing | submitted.

Definition phase_of (s : state) : phase :=
  if isSubmitted s then submitted else editing.

(** The [reduce] shared by [isFormValid] and [handleSubmit]: one entry for
    every key whose validation result is truthy. *)
Definition collect_step (d : FormState) (acc : FormErrors) (key : field)
  : FormErrors :=
  let error := validate key (get d key) in
  if message_truthy error then <[key := error]> acc else acc.

Definition collect_errors (d : FormState) : FormErrors :=
  foldl (collect_step d) ∅ keys.

Definition handleChange (key : field) (value : jsstring) (s : state) : state :=
  mkState
    (set (formData s) key value)
    (if is_touched (touched s) key
     then <[key := validate key value]> (errors s)
     else errors s)
    (touched s)
    (showPassword s)
    (isSubmitted s).

Definition handleBlur (key : field) (value : jsstring) (s : state) : state :=
  mkState
    (formData s)
    (<[key := validate key value]> (errors s))
    (<[key := true]> (touched s))
    (showPassword s)
    (isSubmitted s).

Definition isFormValid (d : FormState) : bool :=
  let hasAllFields := forallb (fun value => nonempty (trim value)) (values d) in
  if negb hasAllFields then false
  else no_keys (collect_errors d).

Definition allTouched : Touched :=
  <[Name := true]> (<[Email := true]> (<[Phone := true]>
    (<[Password := true]> ∅))).

Definition handleSubmit (s : state) : state :=
  let validationErrors := collect_errors (formData s) in
  mkState
    (formData s)
    validationErrors
    allTouched
    (showPassword s)
    (if no_keys validationErrors then true else isSubmitted s).

Definition handleReset (s : state) : state :=
  mkState emptyForm ∅ ∅ (showPassword s) false.

(** [() => setShowPassword(!showPassword)] *)
Definition togglePassword (s : state) : state :=
  mkState (formData s) (errors s) (touched s)
          (negb (showPassword s)) (isSubmitted s).

(** What the view derives from the state. *)

(** [disabled={!isFormValid}] on the submit button. *)
Definition submit_disabled (s : state) : bool := negb (isFormValid (formData s)).

(** [error={touched.k ? errors.k : undefined}] passed to each input. *)
Definition shown_error (s : state) (k : field) : message :=
  if is_touched (touched s) k then error_at (errors s) k else None.

(** The events of the component and the handler each one runs. *)
Inductive event : Type :=
| Change (key : field) (value : jsstring)
| Blur (key : field) (value : jsstring)
| Submit
| Reset
| TogglePassword.

Definition handle (e : event) (s : state) : state :=
  match e with
  | Change key value => handleChange key value s
  | Blur key value => handleBlur key value s
  | Submit => handleSubmit s
  | Reset => handleReset s
  | TogglePassword => togglePassword s
  end.

Definition run (es : list event) (s : state) : state :=
  foldl (fun acc e => handle e acc) s es.

(** The part of the state that the specification's data model names:
    values, errors, touched flags and the submitted flag. *)
Definition form_state (s : state)
  : FormState * FormErrors * Touched * bool :=
  (formData s, errors s, touched s, isSubmitted s).

(** ** The specification's wording of the two shapes *)

(** One or more code units, none of them white space or [@]. *)
Definition email_part (s : jsstring) : Prop :=
  s ≠ [] ∧ Forall (fun c => is_space c = false ∧ c ≠ 64) s.

(** [local@domain.tld] *)
Definition email_shape (v : jsstring) : Prop :=
  ∃ l d t : jsstring,
    v = l ++ [64] ++ d ++ [46] ++ t
    ∧ email_part l ∧ email_part d ∧ email_part t.

(** 10 to 15 decimal digits. *)
Definition phone_shape (v : jsstring) : Prop :=
  (10 ≤ length v ≤ 15)%nat ∧ Forall (fun c => 48 ≤ c ≤ 57) v.

(** Blank: nothing but white space. *)
Definition blank (v : jsstring) : Prop := Forall (fun c => is_space c = true) v.

(** The four character classes of the password rule. *)
Definition has_lowercase (v : jsstring) : Prop :=
  Exists (fun c => 97 ≤ c ≤ 122) v.
Definition has_uppercase (v : jsstring) : Prop :=
  Exists (fun c => 65 ≤ c ≤ 90) v.
Definition has_decimal_digit (v : jsstring) : Prop :=
  Exists (fun c => 48 ≤ c ≤ 57) v.
Definition has_special (v : jsstring) : Prop :=
  Exists (fun c => c ∈ lit "@$!%*?&") v.

(** ** The view ([InteractiveForm]'s return value and [InputField.tsx]) *)

(** [const hasError = !!error] *)
Definition hasError (error : message) : bool := message_truthy error.

(** [const isTouchedAndValid = value && !error], as a condition. *)
Definition isTouchedAndValid (value : jsstring) (error : message) : bool :=
  truthy value && negb (message_truthy error).

(** The class list that [inputClasses] appends to the base classes. *)
Inductive inputLook : Type :=
| errorInputClasses
| successInputClasses
| neutralInputClasses.

Definition inputClasses (value : jsstring) (error : message) : inputLook :=
  if hasError error then errorInputClasses
  else if isTouchedAndValid value error then successInputClasses
  else neutralInputClasses.

(** The look of the input of field [k]: [InteractiveForm] passes
    [formData.k] as [value] and the touched-gated error as [error]. *)
Definition field_look (s : state) (k : field) : inputLook :=
  inputClasses (get (formData s) k) (shown_error s k).

(** The events that the rendered view can raise.  While [isSubmitted]
    holds the component returns the success screen, whose only control is
    the reset button; otherwise it returns the form with its four inputs,
    the password toggle and the submit button.  The inputs are controlled
    ([value={value}]), so the value a blur event reads from its target is
    the value in [formData].  A submit is offered whether or not the button
    is disabled: nothing below relies on the browser holding it back. *)
Definition offered (s : state) (e : event) : bool :=
  match e with
  | Reset => isSubmitted s
  | Blur key value =>
      negb (isSubmitted s) && bool_decide (value = get (formData s) key)
  | Change _ _ | Submit | TogglePassword => negb (isSubmitted s)
  end.

(** The states the component can be in: the mounted one, and what the
    handlers make of a reachable state on an event its view offers. *)
Inductive reachable : state -> Prop :=
| reachable_initial : reachable initial
| reachable_handle s e :
    reachable s -> offered s e = true -> reachable (handle e s).

(** Whether a sequence of events clicks the password toggle an odd number
    of times. *)
Fixpoint odd_toggles (es : list event) : bool :=
  match es with
  | [] => false
  | TogglePassword :: es' => negb (odd_toggles es')
  | _ :: es' => odd_toggles es'
  end.

(** The events that only type into the form or click the toggle. *)
Definition typing_only (e : event) : Prop :=
  match e with
  | Change _ _ | TogglePassword => True
  | Blur _ _ | Submit | Reset => False
  end.

(** The number of decimal digits in a string. *)
Definition count_digits (v : jsstring) : nat :=
  length (filter (fun c => 48 ≤ c ≤ 57) v).

(** The errors that are stored belong to touched fields, touched flags
    are never stored as [false], and a touched field's entry is what
    [validate] says about its current value. *)
Definition errors_current (s : state) : Prop :=
  forall k,
    (touched s !! k = Some true \/ touched s !! k = None)
    /\ (touched s !! k = None -> errors s !! k = None)
    /\ (touched s !! k = Some true ->
        error_at (errors s) k = validate k (get (formData s) k)).

(** * Properties *)

(** ** The matcher decides the language of a pattern *)

Section RegexFacts.

Implicit Types (r : regex) (s : jsstring) (c : code_unit).
Implicit Types (p : code_unit -> bool).

Lemma nullable_lang r : nullable r = true <-> lang r [].
Proof.
  split.
  - induction r; simpl; intros H; try discriminate.
    + constructor.
    + apply andb_true_iff in H as [H1 H2].
      change (@nil code_unit) with (@nil code_unit ++ []).
      constructor; auto.
    + apply orb_true_iff in H as [H|H]; [apply lang_alt_l|apply lang_alt_r]; auto.
    + constructor.
  - intros H. remember (@nil code_unit) as s eqn:Es.
    induction H; simpl; auto; try discriminate.
    + apply app_eq_nil in Es as [-> ->].
      rewrite IHlang1, IHlang2; auto.
    + rewrite IHlang; auto.
    + rewrite IHlang; auto. apply orb_true_r.
Qed.

Lemma lang_seq_iff r1 r2 s :
  lang (Seq r1 r2) s <->
  exists s1 s2, s = s1 ++ s2 /\ lang r1 s1 /\ lang r2 s2.
Proof.
  split.
  - intros H. inversion H; subst. eauto.
  - intros (s1 & s2 & -> & H1 & H2). constructor; auto.
Qed.

Lemma lang_alt_iff r1 r2 s : lang (Alt r1 r2) s <-> lang r1 s \/ lang r2 s.
Proof.
  split.
  - intros H. inversion H; subst; auto.
  - intros [H|H]; [apply lang_alt_l|apply lang_alt_r]; auto.
Qed.

Lemma lang_class_iff p s : lang (Class p) s <-> exists c, s = [c] /\ p c = true.
Proof.
  split.
  - intros H. inversion H; subst. eauto.
  - intros (c & -> & H). constructor; auto.
Qed.

Lemma lang_eps_iff s : lang Eps s <-> s = [].
Proof.
  split.
  - intros H. inversion H; auto.
  - intros ->. constructor.
Qed.

Lemma lang_never s : ~ lang Never s.
Proof. intros H. inversion H. Qed.

(** A non-empty word of [r*] starts with a non-empty word of [r]. *)
Lemma lang_star_cons r c s :
  lang (Star r) (c :: s) ->
  exists s1 s2, s = s1 ++ s2 /\ lang r (c :: s1) /\ lang (Star r) s2.
Proof.
  intros H. remember (Star r) as r' eqn:Er. remember (c :: s) as w eqn:Ew.
  revert r c s Er Ew.
  induction H; intros r0 c0 s0 Er Ew; try discriminate.
  injection Er as ->.
  destruct s1 as [|c1 s1]; simpl in Ew.
  - eapply IHlang2; eauto.
  - injection Ew as -> <-. eauto.
Qed.

Lemma deriv_lang c r s : lang (deriv c r) s <-> lang r (c :: s).
Proof.
  revert s. induction r; intros s; simpl.
  - split; intros H; inversion H.
  - split; intros H; inversion H.
  - destruct (p c) eqn:Ep.
    + rewrite lang_eps_iff, lang_class_iff. split.
      * intros ->. eauto.
      * intros (c' & E & _). congruence.
    + split; intros H; [inversion H|].
      apply lang_class_iff in H as (c' & E & Hc). congruence.
  - assert (Hl : lang (Seq (deriv c r1) r2) s -> lang (Seq r1 r2) (c :: s)).
    { intros H. apply lang_seq_iff in H as (s1 & s2 & -> & H1 & H2).
      apply IHr1 in H1.
      change (c :: s1 ++ s2) with ((c :: s1) ++ s2). constructor; auto. }
    destruct (nullable r1) eqn:En.
    + rewrite lang_alt_iff. split.
      * intros [H|H]; auto.
        apply IHr2 in H. apply nullable_lang in En.
        change (c :: s) with ([] ++ c :: s). constructor; auto.
      * intros H. apply lang_seq_iff in H as (s1 & s2 & E & H1 & H2).
        destruct s1 as [|c1 s1]; simpl in E.
        -- subst s2. right. apply IHr2. auto.
        -- injection E as <- ->. left. constructor; auto. apply IHr1. auto.
    + split; auto.
      intros H. apply lang_seq_iff in H as (s1 & s2 & E & H1 & H2).
      destruct s1 as [|c1 s1]; simpl in E.
      * apply nullable_lang in H1. congruence.
      * injection E as <- ->. constructor; auto. apply IHr1. auto.
  - rewrite !lang_alt_iff, IHr1, IHr2. tauto.
  - split.
    + intros H. apply lang_seq_iff in H as (s1 & s2 & -> & H1 & H2).
      apply IHr in H1.
      change (c :: s1 ++ s2) with ((c :: s1) ++ s2). constructor; auto.
    + intros H. apply lang_star_cons in H as (s1 & s2 & -> & H1 & H2).
      constructor; auto. apply IHr. auto.
Qed.

Theorem matches_lang r s : matches r s = true <-> lang r s.
Proof.
  revert r. induction s as [|c s IH]; intros r; simpl.
  - apply nullable_lang.
  - rewrite IH. apply deriv_lang.
Qed.

Lemma matches_false r s : matches r s = false <-> ~ lang r s.
Proof.
  rewrite <- matches_lang. destruct (matches r s); split; congruence.
Qed.

Lemma lang_star_any s : lang (Star AnyUnit) s.
Proof.
  induction s as [|c s IH]; [constructor|].
  change (c :: s) with ([c] ++ s). constructor; auto.
  constructor. reflexivity.
Qed.

End RegexFacts.

(** ** Quantified character classes *)

Section ClassFacts.

Variable p : code_unit -> bool.
Implicit Types (s : jsstring) (c : code_unit).

Local Abbreviation holds := (in_class p).

Lemma lang_star_class s : lang (Star (Class p)) s <-> Forall holds s.
Proof.
  split.
  - intros H. remember (Star (Class p)) as r eqn:Er.
    induction H; try discriminate; [constructor|].
    injection Er as ->. apply Forall_app. split; auto.
    apply lang_class_iff in H as (c & -> & Hc). repeat constructor. exact Hc.
  - induction 1 as [|c s Hc _ IH]; [constructor|].
    change (c :: s) with ([c] ++ s). constructor; auto.
    constructor. exact Hc.
Qed.

Lemma lang_plus_class s :
  lang (Plus (Class p)) s <-> s <> [] /\ Forall holds s.
Proof.
  unfold Plus. rewrite lang_seq_iff. split.
  - intros (s1 & s2 & -> & H1 & H2).
    apply lang_class_iff in H1 as (c & -> & Hc).
    apply lang_star_class in H2. split; [discriminate|].
    constructor; auto.
  - intros [Hne H]. destruct H as [|c s Hc H]; [contradiction|].
    exists [c], s. split; [reflexivity|]. split.
    + constructor. exact Hc.
    + apply lang_star_class. exact H.
Qed.

Lemma lang_power_class n s :
  lang (Power (Class p) n) s <-> length s = n /\ Forall holds s.
Proof.
  revert s. induction n as [|n IH]; intros s; simpl.
  - rewrite lang_eps_iff. split.
    + intros ->. split; [reflexivity|constructor].
    + intros [H _]. destruct s; [reflexivity|discriminate].
  - rewrite lang_seq_iff. split.
    + intros (s1 & s2 & -> & H1 & H2).
      apply lang_class_iff in H1 as (c & -> & Hc).
      apply IH in H2 as [<- H2]. split; [reflexivity|]. constructor; auto.
    + intros [Hl H]. destruct H as [|c s Hc H]; [discriminate|].
      exists [c], s. split; [reflexivity|]. split.
      * constructor. exact Hc.
      * apply IH. simpl in Hl. split; [lia|exact H].
Qed.

Lemma lang_upto_class k s :
  lang (UpTo (Class p) k) s <-> (length s <= k)%nat /\ Forall holds s.
Proof.
  revert s. induction k as [|k IH]; intros s; simpl.
  - rewrite lang_eps_iff. split.
    + intros ->. split; [reflexivity|constructor].
    + intros [H _]. destruct s; [reflexivity|simpl in H; lia].
  - unfold Opt. rewrite lang_alt_iff, lang_eps_iff, lang_seq_iff. split.
    + intros [->|(s1 & s2 & -> & H1 & H2)].
      * split; [simpl; lia|constructor].
      * apply lang_class_iff in H1 as (c & -> & Hc).
        apply IH in H2 as [Hl H2]. split; [simpl; lia|]. constructor; auto.
    + intros [Hl H]. destruct H as [|c s Hc H]; [left; reflexivity|].
      right. exists [c], s. split; [reflexivity|]. split.
      * constructor. exact Hc.
      * apply IH. simpl in Hl. split; [lia|exact H].
Qed.

Lemma lang_range_class m n s :
  (m <= n)%nat ->
  lang (Range (Class p) m n) s <->
  (m <= length s <= n)%nat /\ Forall holds s.
Proof.
  intros Hmn. unfold Range. rewrite lang_seq_iff. split.
  - intros (s1 & s2 & -> & H1 & H2).
    apply lang_power_class in H1 as [H1 F1].
    apply lang_upto_class in H2 as [H2 F2].
    rewrite length_app. split; [lia|]. apply Forall_app. auto.
  - intros [Hl H]. exists (take m s), (drop m s).
    split; [symmetry; apply take_drop|].
    rewrite <- (take_drop m s) in H. apply Forall_app in H as [F1 F2].
    split.
    + apply lang_power_class. split; [|exact F1].
      rewrite length_take. lia.
    + apply lang_upto_class. split; [|exact F2].
      rewrite length_drop. lia.
Qed.

(** An unanchored one-class pattern looks for one code unit of the class. *)
Lemma test_search_class s :
  test_search (Class p) s = true <-> Exists holds s.
Proof.
  unfold test_search. rewrite matches_lang, lang_seq_iff. split.
  - intros (s1 & s2 & -> & _ & H).
    apply lang_seq_iff in H as (s3 & s4 & -> & H3 & _).
    apply lang_class_iff in H3 as (c & -> & Hc).
    apply Exists_app. right. apply Exists_app. left. constructor. exact Hc.
  - intros H. apply Exists_exists in H as (c & Hin & Hc).
    apply list_elem_of_split in Hin as (s1 & s2 & ->).
    pose proof lang_star_any as Hany.
    exists s1, (c :: s2). split; [reflexivity|]. split; [apply Hany|].
    change (c :: s2) with ([c] ++ s2). constructor; [|apply Hany].
    constructor. exact Hc.
Qed.

End ClassFacts.

(** ** Strings: trimming and the character classes *)

Lemma Forall_equiv {A} (P Q : A -> Prop) (l : list A) :
  (forall x, P x <-> Q x) -> Forall P l <-> Forall Q l.
Proof.
  intros H. split; intros HF; (eapply Forall_impl; [exact HF|]);
    intros x; apply H.
Qed.

Lemma Exists_equiv {A} (P Q : A -> Prop) (l : list A) :
  (forall x, P x <-> Q x) -> Exists P l <-> Exists Q l.
Proof.
  intros H. split; intros HE; (eapply Exists_impl; [exact HE|]);
    intros x; apply H.
Qed.

Lemma is_digit_spec c : is_digit c = true <-> 48 ≤ c ≤ 57.
Proof. unfold is_digit. rewrite andb_true_iff, !N.leb_le. tauto. Qed.

Lemma is_lower_spec c : is_lower c = true <-> 97 ≤ c ≤ 122.
Proof. unfold is_lower. rewrite andb_true_iff, !N.leb_le. tauto. Qed.

Lemma is_upper_spec c : is_upper c = true <-> 65 ≤ c ≤ 90.
Proof. unfold is_upper. rewrite andb_true_iff, !N.leb_le. tauto. Qed.

Lemma is_special_spec c : is_special c = true <-> c ∈ lit "@$!%*?&".
Proof.
  unfold is_special. rewrite !orb_true_iff, !N.eqb_eq.
  change (lit "@$!%*?&") with [64; 36; 33; 37; 42; 63; 38].
  rewrite !elem_of_cons, elem_of_nil. tauto.
Qed.

Lemma not_space_or_at_spec c :
  not_space_or_at c = true <-> is_space c = false /\ c <> 64.
Proof.
  unfold not_space_or_at.
  rewrite negb_true_iff, orb_false_iff, N.eqb_neq. tauto.
Qed.

Lemma trimStart_nil (v : jsstring) : trimStart v = [] <-> blank v.
Proof.
  unfold blank. induction v as [|c v IH]; simpl.
  - split; [constructor|reflexivity].
  - destruct (is_space c) eqn:Ec.
    + rewrite IH. split; [constructor; auto|].
      intros H. inversion H; auto.
    + split; [discriminate|]. intros H. inversion H; congruence.
Qed.

Lemma trimStart_idem (v : jsstring) : trimStart (trimStart v) = trimStart v.
Proof.
  induction v as [|c v IH]; simpl; [reflexivity|].
  destruct (is_space c) eqn:Ec; [exact IH|]. simpl. rewrite Ec. reflexivity.
Qed.

Lemma trimStart_blank (v : jsstring) : blank (trimStart v) <-> blank v.
Proof. rewrite <- !trimStart_nil, trimStart_idem. tauto. Qed.

Lemma trim_nil (v : jsstring) : trim v = [] <-> blank v.
Proof.
  unfold trim, trimEnd.
  rewrite <- trimStart_blank.
  rewrite <- (rev_involutive []) at 1. simpl rev at 2.
  split.
  - intros H. apply (f_equal (@rev _)) in H. rewrite !rev_involutive in H.
    simpl in H. apply trimStart_nil in H. unfold blank in *.
    apply Forall_rev in H. rewrite rev_involutive in H. exact H.
  - intros H. f_equal. apply trimStart_nil. unfold blank in *.
    apply Forall_rev. exact H.
Qed.

Lemma truthy_nil (v : jsstring) : truthy v = false <-> v = [].
Proof. destruct v; simpl; split; congruence. Qed.

Lemma truthy_cons (v : jsstring) : truthy v = true <-> v <> [].
Proof. destruct v; simpl; split; congruence. Qed.

(** ** The two anchored patterns *)

Lemma email_part_lang (s : jsstring) :
  lang (Plus (Class not_space_or_at)) s <-> email_part s.
Proof.
  rewrite lang_plus_class. unfold email_part.
  rewrite (Forall_equiv _ _ s not_space_or_at_spec). tauto.
Qed.

Lemma lang_chr (c : code_unit) (s : jsstring) : lang (Chr c) s <-> s = [c].
Proof.
  unfold Chr. rewrite lang_class_iff. split.
  - intros (c' & -> & H). apply N.eqb_eq in H. congruence.
  - intros ->. exists c. split; [reflexivity|apply N.eqb_refl].
Qed.

Theorem email_re_shape (v : jsstring) :
  test_anchored email_re v = true <-> email_shape v.
Proof.
  unfold test_anchored, email_re, email_shape. rewrite matches_lang. split.
  - intros H.
    apply lang_seq_iff in H as (l & w1 & -> & Hl & H).
    apply lang_seq_iff in H as (a & w2 & -> & Ha & H).
    apply lang_seq_iff in H as (d & w3 & -> & Hd & H).
    apply lang_seq_iff in H as (b & t & -> & Hb & Ht).
    apply lang_chr in Ha as ->. apply lang_chr in Hb as ->.
    exists l, d, t. rewrite <- !email_part_lang. auto.
  - intros (l & d & t & -> & Hl & Hd & Ht).
    apply email_part_lang in Hl, Hd, Ht.
    repeat (constructor; auto); apply N.eqb_refl.
Qed.

Theorem phone_re_shape (v : jsstring) :
  test_anchored phone_re v = true <-> phone_shape v.
Proof.
  unfold test_anchored, phone_re, phone_shape.
  rewrite matches_lang, lang_range_class by lia.
  rewrite (Forall_equiv _ _ v is_digit_spec). tauto.
Qed.

(** The code units that [remove_whitespace] keeps. *)
Lemma remove_whitespace_spec (v : jsstring) (c : code_unit) :
  c ∈ remove_whitespace v <-> c ∈ v /\ is_space c = false.
Proof. unfold remove_whitespace. rewrite list_elem_of_filter. tauto. Qed.

Lemma search_lower v : test_search (Class is_lower) v = true <-> has_lowercase v.
Proof. rewrite test_search_class. apply Exists_equiv, is_lower_spec. Qed.

Lemma search_upper v : test_search (Class is_upper) v = true <-> has_uppercase v.
Proof. rewrite test_search_class. apply Exists_equiv, is_upper_spec. Qed.

Lemma search_digit v :
  test_search (Class is_digit) v = true <-> has_decimal_digit v.
Proof. rewrite test_search_class. apply Exists_equiv, is_digit_spec. Qed.

Lemma search_special v :
  test_search (Class is_special) v = true <-> has_special v.
Proof. rewrite test_search_class. apply Exists_equiv, is_special_spec. Qed.

(** ** The validator *)

Local Open Scope string_scope.

Lemma validate_nonempty_cases (v : jsstring) :
  v <> [] -> truthy v = true.
Proof. apply truthy_cons. Qed.

Lemma validate_email_nonempty (v : jsstring) :
  v <> [] ->
  validate Email v =
    if test_anchored email_re v then None else Some msg_email_format.
Proof.
  intros H. unfold validate. rewrite (validate_nonempty_cases v H). simpl.
  destruct (test_anchored email_re v); reflexivity.
Qed.

Lemma validate_phone_nonempty (v : jsstring) :
  v <> [] ->
  validate Phone v =
    if test_anchored phone_re (remove_whitespace v)
    then None else Some msg_phone_digits.
Proof.
  intros H. unfold validate. rewrite (validate_nonempty_cases v H). simpl.
  destruct (test_anchored phone_re (remove_whitespace v)); reflexivity.
Qed.

Lemma validate_password_long (v : jsstring) :
  (8 <= length v)%nat ->
  validate Password v =
    if negb (test_search (Class is_lower) v) then Some msg_password_lower
    else if negb (test_search (Class is_upper) v) then Some msg_password_upper
    else if negb (test_search (Class is_digit) v) then Some msg_password_digit
    else if negb (test_search (Class is_special) v)
         then Some msg_password_special
    else None.
Proof.
  intros H. unfold validate.
  assert (Hne : v <> []) by (intros ->; simpl in H; lia).
  rewrite (validate_nonempty_cases v Hne). simpl negb. cbv iota.
  assert (Hl : Nat.ltb (length v) 8 = false) by (apply Nat.ltb_ge; exact H).
  rewrite Hl. reflexivity.
Qed.

(** The validator never answers with an empty message, so a result is
    truthy exactly when it is a message. *)
Lemma validate_truthy (k : field) (v : jsstring) :
  message_truthy (validate k v) = true <-> validate k v <> None.
Proof.
  assert (H : forall m, validate k v = Some m -> m <> EmptyString).
  { intros m. destruct k; unfold validate;
      repeat match goal with
             | |- context [if ?b then _ else _] => destruct b
             end;
      intros E; inversion E; discriminate. }
  destruct (validate k v) as [m|] eqn:E; simpl.
  - specialize (H m eq_refl). destruct m; [contradiction|].
    split; [discriminate|reflexivity].
  - split; [discriminate|congruence].
Qed.

(** Some evaluations of the validator. *)
Example validate_name_blank :
  validate Name (lit "   ") = Some "Name is required.".
Proof. vm_compute. reflexivity. Qed.

Example validate_name_nbsp : validate Name [160; 0x3000; 9] = Some "Name is required.".
Proof. vm_compute. reflexivity. Qed.

Example validate_email_subdomain : validate Email (lit "a@b.c.d") = None.
Proof. vm_compute. reflexivity. Qed.

Example validate_email_two_ats :
  validate Email (lit "a@@b.c") = Some "Invalid email format.".
Proof. vm_compute. reflexivity. Qed.

Example validate_email_trailing_space :
  validate Email (lit "a@b.c ") = Some "Invalid email format.".
Proof. vm_compute. reflexivity. Qed.

Example validate_phone_blank :
  validate Phone (lit " ") = Some "Phone must be 10 to 15 digits.".
Proof. vm_compute. reflexivity. Qed.

Example validate_phone_16 :
  validate Phone (lit "1234567890123456")
  = Some "Phone must be 10 to 15 digits.".
Proof. vm_compute. reflexivity. Qed.

Example validate_password_short :
  validate Password (lit "Ab1!")
  = Some "Password must be at least 8 characters long.".
Proof. vm_compute. reflexivity. Qed.

Example validate_password_no_special :
  validate Password (lit "Abcdefg1")
  = Some "Must contain a special character (@$!%*?&).".
Proof. vm_compute. reflexivity. Qed.

(** C6. For each of the four fields, validating the empty string gives that
    field's "required" message. *)
Theorem validate_empty_required :
  validate Name [] = Some "Name is required."
  /\ validate Email [] = Some "Email is required."
  /\ validate Phone [] = Some "Phone number is required."
  /\ validate Password [] = Some "Password is required.".
Proof. repeat split; reflexivity. Qed.

(** C4. [validate Email] answers "Email is required." on the empty string;
    on any other string it answers nothing exactly when the string is
    [local@domain.tld] (each part one or more code units, none white space
    or [@]) and "Invalid email format." exactly when it is not; so
    ["a@b.c"] passes and ["abc"] gets the format message. *)
Theorem validate_email_spec :
  validate Email [] = Some "Email is required."
  /\ (forall v : jsstring, v <> [] ->
        (validate Email v = None <-> email_shape v)
        /\ (validate Email v = Some "Invalid email format."
            <-> ~ email_shape v))
  /\ validate Email (lit "a@b.c") = None
  /\ validate Email (lit "abc") = Some "Invalid email format.".
Proof.
  split; [reflexivity|]. split; [|split; vm_compute; reflexivity].
  intros v Hne. rewrite (validate_email_nonempty v Hne).
  rewrite <- email_re_shape.
  destruct (test_anchored email_re v); unfold msg_email_format;
    intuition congruence.
Qed.

Lemma validate_email_spec_witness :
  lit "a@b.c" <> []
  /\ email_shape (lit "a@b.c")
  /\ validate Email (lit "a@b.c") = None
  /\ lit "a b" <> []
  /\ ~ email_shape (lit "a b")
  /\ validate Email (lit "a b") = Some "Invalid email format.".
Proof.
  assert (N1 : lit "a@b.c" <> []) by (vm_compute; discriminate).
  assert (N2 : lit "a b" <> []) by (vm_compute; discriminate).
  assert (E1 : email_shape (lit "a@b.c")).
  { apply email_re_shape. vm_compute. reflexivity. }
  assert (E2 : ~ email_shape (lit "a b")).
  { intros H. apply email_re_shape in H. vm_compute in H. discriminate. }
  split; [exact N1|]. split; [exact E1|].
  split; [exact (proj2 (proj1 (proj1 (proj2 validate_email_spec) _ N1)) E1)|].
  split; [exact N2|]. split; [exact E2|].
  exact (proj2 (proj2 (proj1 (proj2 validate_email_spec) _ N2)) E2).
Defined.

(** C5. [validate Phone] answers "Phone number is required." on the empty
    string; on any other string it answers nothing exactly when what is left
    after deleting all white space is 10 to 15 decimal digits, and "Phone
    must be 10 to 15 digits." otherwise; so ["123"] gets the digit message
    and ["1234567890"] and ["123 456 7890"] pass. *)
Theorem validate_phone_spec :
  validate Phone [] = Some "Phone number is required."
  /\ (forall v : jsstring, v <> [] ->
        (validate Phone v = None <-> phone_shape (remove_whitespace v))
        /\ (validate Phone v = Some "Phone must be 10 to 15 digits."
            <-> ~ phone_shape (remove_whitespace v)))
  /\ validate Phone (lit "123") = Some "Phone must be 10 to 15 digits."
  /\ validate Phone (lit "1234567890") = None
  /\ validate Phone (lit "123 456 7890") = None.
Proof.
  split; [reflexivity|]. split; [|repeat split; vm_compute; reflexivity].
  intros v Hne. rewrite (validate_phone_nonempty v Hne).
  rewrite <- phone_re_shape.
  destruct (test_anchored phone_re (remove_whitespace v));
    unfold msg_phone_digits; intuition congruence.
Qed.

Lemma validate_phone_spec_witness :
  lit "123 456 7890" <> []
  /\ phone_shape (remove_whitespace (lit "123 456 7890"))
  /\ validate Phone (lit "123 456 7890") = None.
Proof.
  assert (N1 : lit "123 456 7890" <> []) by (vm_compute; discriminate).
  assert (P1 : phone_shape (remove_whitespace (lit "123 456 7890"))).
  { apply phone_re_shape. vm_compute. reflexivity. }
  split; [exact N1|]. split; [exact P1|].
  exact (proj2 (proj1 (proj1 (proj2 validate_phone_spec) _ N1)) P1).
Defined.

(** C3. On a password of at least 8 code units, [validate Password] looks
    for a lowercase letter, an uppercase letter, a decimal digit and one of
    [@$!%*?&], in that order, and answers with the message of the first
    class that is missing, or with nothing when all four are there; so
    ["Abcdef1!"] passes and ["abcdefg1"] gets the uppercase message. *)
Theorem validate_password_classes :
  (forall v : jsstring, (8 <= length v)%nat ->
     (~ has_lowercase v ->
      validate Password v = Some "Must contain a lowercase letter.")
     /\ (has_lowercase v -> ~ has_uppercase v ->
         validate Password v = Some "Must contain an uppercase letter.")
     /\ (has_lowercase v -> has_uppercase v -> ~ has_decimal_digit v ->
         validate Password v = Some "Must contain a number.")
     /\ (has_lowercase v -> has_uppercase v -> has_decimal_digit v ->
         ~ has_special v ->
         validate Password v
         = Some "Must contain a special character (@$!%*?&).")
     /\ (has_lowercase v -> has_uppercase v -> has_decimal_digit v ->
         has_special v ->
         validate Password v = None))
  /\ validate Password (lit "Abcdef1!") = None
  /\ validate Password (lit "abcdefg1")
     = Some "Must contain an uppercase letter.".
Proof.
  split; [|split; vm_compute; reflexivity].
  intros v Hlen. rewrite (validate_password_long v Hlen).
  rewrite <- search_lower, <- search_upper, <- search_digit, <- search_special.
  destruct (test_search (Class is_lower) v),
           (test_search (Class is_upper) v),
           (test_search (Class is_digit) v),
           (test_search (Class is_special) v);
    simpl; repeat split; intros; try reflexivity; congruence.
Qed.

Lemma validate_password_classes_witness :
  (8 <= length (lit "abcdefg1"))%nat
  /\ has_lowercase (lit "abcdefg1")
  /\ ~ has_uppercase (lit "abcdefg1")
  /\ validate Password (lit "abcdefg1")
     = Some "Must contain an uppercase letter.".
Proof.
  assert (L : (8 <= length (lit "abcdefg1"))%nat) by (vm_compute; lia).
  assert (A : has_lowercase (lit "abcdefg1")).
  { apply search_lower. vm_compute. reflexivity. }
  assert (B : ~ has_uppercase (lit "abcdefg1")).
  { intros H. apply search_upper in H. vm_compute in H. discriminate. }
  split; [exact L|]. split; [exact A|]. split; [exact B|].
  exact (proj1 (proj2 (proj1 validate_password_classes _ L)) A B).
Defined.

(** ** The error map that [handleSubmit] and [isFormValid] build *)

Lemma is_touched_true (t : gmap field bool) (k : field) :
  is_touched t k = true <-> t !! k = Some true.
Proof.
  unfold is_touched. destruct (t !! k) as [[]|]; simpl; split; congruence.
Qed.

Lemma is_touched_false (t : gmap field bool) (k : field) :
  is_touched t k = false <-> t !! k <> Some true.
Proof.
  rewrite <- is_touched_true. destruct (is_touched t k); split; congruence.
Qed.

Lemma allTouched_lookup (k : field) : allTouched !! k = Some true.
Proof. unfold allTouched. destruct k; by simplify_map_eq. Qed.

Lemma collect_step_eq (d : FormState) (acc : gmap field message) (k : field) :
  collect_step d acc k =
    match validate k (get d k) with
    | Some m => <[k := Some m]> acc
    | None => acc
    end.
Proof.
  unfold collect_step. pose proof (validate_truthy k (get d k)) as H.
  destruct (validate k (get d k)) as [m|]; simpl in *.
  - destruct m; [|reflexivity].
    exfalso. assert (false = true) by (apply H; discriminate). discriminate.
  - reflexivity.
Qed.

Lemma collect_errors_lookup (d : FormState) (k : field) :
  collect_errors d !! k =
    match validate k (get d k) with
    | Some m => Some (Some m)
    | None => None
    end.
Proof.
  unfold collect_errors, keys. cbn [foldl]. rewrite !collect_step_eq.
  destruct k;
    destruct (validate Name (get d Name)),
             (validate Email (get d Email)),
             (validate Phone (get d Phone)),
             (validate Password (get d Password));
    by simplify_map_eq.
Qed.

Lemma collect_errors_at (d : FormState) (k : field) :
  error_at (collect_errors d) k = validate k (get d k).
Proof.
  unfold error_at. rewrite collect_errors_lookup.
  destruct (validate k (get d k)); reflexivity.
Qed.

Lemma collect_errors_empty (d : FormState) :
  collect_errors d = ∅ <-> forall k, validate k (get d k) = None.
Proof.
  split.
  - intros H k. rewrite <- collect_errors_at, H. reflexivity.
  - intros H. apply map_eq. intros k.
    rewrite collect_errors_lookup, H, lookup_empty. reflexivity.
Qed.

Lemma no_keys_empty (m : gmap field message) : no_keys m = true <-> m = ∅.
Proof. unfold no_keys. rewrite Nat.eqb_eq. apply map_size_empty_iff. Qed.

Lemma no_keys_collect (d : FormState) :
  no_keys (collect_errors d) = true <-> forall k, validate k (get d k) = None.
Proof. rewrite no_keys_empty. apply collect_errors_empty. Qed.

Lemma all_fields (P : field -> Prop) :
  (forall k, P k) <-> P Name /\ P Email /\ P Phone /\ P Password.
Proof.
  split.
  - intros H. auto.
  - intros (H1 & H2 & H3 & H4) []; assumption.
Qed.

Lemma get_set_eq (d : FormState) (k : field) (v : jsstring) :
  get (set d k v) k = v.
Proof. destruct k; reflexivity. Qed.

Lemma get_set_ne (d : FormState) (k k' : field) (v : jsstring) :
  k' <> k -> get (set d k v) k' = get d k'.
Proof. destruct k, k'; intros H; try reflexivity; contradiction. Qed.

Theorem isFormValid_spec (d : FormState) :
  isFormValid d = true <->
  (forall k, validate k (get d k) = None) /\ (forall k, trim (get d k) <> []).
Proof.
  unfold isFormValid, values, keys, nonempty. cbn [map forallb].
  rewrite (all_fields (fun k => trim (get d k) <> [])).
  rewrite <- !truthy_cons, <- no_keys_collect.
  destruct (truthy (trim (get d Name))), (truthy (trim (get d Email))),
           (truthy (trim (get d Phone))), (truthy (trim (get d Password)));
    simpl; intuition congruence.
Qed.

(** ** The submit button *)

(** C2. The submit button is enabled exactly when [validate] reports
    nothing for each of the four fields and each of the four values is
    non-empty after trimming; a value that trims to the empty string, or a
    field that fails validation, disables it. *)
Theorem submit_enabled_spec (s : state) :
  (submit_disabled s = false <->
   (forall k, validate k (get (formData s) k) = None)
   /\ (forall k, trim (get (formData s) k) <> []))
  /\ (forall k, trim (get (formData s) k) = [] -> submit_disabled s = true)
  /\ (forall k, blank (get (formData s) k) -> submit_disabled s = true)
  /\ (forall k m, validate k (get (formData s) k) = Some m ->
        submit_disabled s = true).
Proof.
  assert (E : submit_disabled s = false <->
              (forall k, validate k (get (formData s) k) = None)
              /\ (forall k, trim (get (formData s) k) <> [])).
  { unfold submit_disabled. rewrite negb_false_iff. apply isFormValid_spec. }
  assert (T : forall k, trim (get (formData s) k) = [] ->
                        submit_disabled s = true).
  { intros k Hk. destruct (submit_disabled s); [reflexivity|].
    destruct (proj1 E eq_refl) as [_ D]. destruct (D k Hk). }
  split; [exact E|]. split; [exact T|]. split.
  - intros k Hk. apply (T k), trim_nil, Hk.
  - intros k m Hk. destruct (submit_disabled s); [reflexivity|].
    destruct (proj1 E eq_refl) as [D _]. rewrite D in Hk. discriminate.
Qed.

Lemma submit_enabled_spec_witness :
  trim (get (formData initial) Email) = []
  /\ submit_disabled initial = true
  /\ validate Password (get (formData (handleChange Password (lit "abc") initial))
                            Password)
     = Some "Password must be at least 8 characters long."
  /\ submit_disabled (handleChange Password (lit "abc") initial) = true.
Proof.
  assert (A : trim (get (formData initial) Email) = []) by reflexivity.
  assert (B : validate Password
                (get (formData (handleChange Password (lit "abc") initial))
                     Password)
              = Some "Password must be at least 8 characters long.")
    by reflexivity.
  split; [exact A|].
  split; [exact (proj1 (proj2 (submit_enabled_spec initial)) Email A)|].
  split; [exact B|].
  exact (proj2 (proj2 (proj2 (submit_enabled_spec _))) Password _ B).
Defined.

(** ** The handlers *)

(** C1. [handleSubmit] marks all four fields touched and replaces the error
    map by the validation results of the four current values; the map is
    empty exactly when every field validates, and from the editing view the
    component moves to the submitted view exactly in that case.  When some
    field fails, the view stays editing and that field's message is in the
    map and shown, whether or not the field was blurred before. *)
Theorem handleSubmit_spec (s : state) :
  (forall k, touched (handleSubmit s) !! k = Some true)
  /\ (forall k, error_at (errors (handleSubmit s)) k
                = validate k (get (formData s) k))
  /\ (errors (handleSubmit s) = ∅ <->
      forall k, validate k (get (formData s) k) = None)
  /\ (errors (handleSubmit s) = ∅ -> phase_of (handleSubmit s) = submitted)
  /\ (phase_of s = editing ->
      (phase_of (handleSubmit s) = submitted <-> errors (handleSubmit s) = ∅))
  /\ (phase_of s = editing ->
      forall k m, validate k (get (formData s) k) = Some m ->
        phase_of (handleSubmit s) = editing
        /\ errors (handleSubmit s) !! k = Some (Some m)
        /\ shown_error (handleSubmit s) k = Some m).
Proof.
  unfold phase_of, shown_error, handleSubmit; cbn [touched errors isSubmitted].
  pose proof (no_keys_empty (collect_errors (formData s))) as HK.
  split; [apply allTouched_lookup|].
  split; [apply collect_errors_at|].
  split; [apply collect_errors_empty|].
  split; [intros H; apply HK in H; rewrite H; reflexivity|].
  split.
  - intros Hs. destruct (isSubmitted s); [discriminate|].
    destruct (no_keys (collect_errors (formData s))); intuition congruence.
  - intros Hs k m Hk. destruct (isSubmitted s); [discriminate|].
    assert (L : collect_errors (formData s) !! k = Some (Some m))
      by (rewrite collect_errors_lookup, Hk; reflexivity).
    split; [|split].
    + destruct (no_keys (collect_errors (formData s))); [|reflexivity].
      rewrite (proj1 HK eq_refl), lookup_empty in L. discriminate.
    + exact L.
    + rewrite (proj2 (is_touched_true _ _) (allTouched_lookup k)).
      unfold error_at. rewrite L. reflexivity.
Qed.

Lemma handleSubmit_spec_witness :
  phase_of initial = editing
  /\ validate Phone (get (formData initial) Phone)
     = Some "Phone number is required."
  /\ phase_of (handleSubmit initial) = editing
  /\ shown_error (handleSubmit initial) Phone
     = Some "Phone number is required.".
Proof.
  assert (A : phase_of initial = editing) by reflexivity.
  assert (B : validate Phone (get (formData initial) Phone)
              = Some "Phone number is required.") by reflexivity.
  pose proof (proj2 (proj2 (proj2 (proj2 (proj2 (handleSubmit_spec initial)))))
                A Phone _ B) as (H1 & _ & H3).
  split; [exact A|]. split; [exact B|]. split; [exact H1|exact H3].
Defined.

(** C10. [handleSubmit] leaves the entered values as they are; a submit
    that fails changes the touched flags and the error map and nothing
    else. *)
Theorem handleSubmit_keeps_values (s : state) :
  formData (handleSubmit s) = formData s
  /\ (forall k, get (formData (handleSubmit s)) k = get (formData s) k)
  /\ (forall k m, validate k (get (formData s) k) = Some m ->
        formData (handleSubmit s) = formData s
        /\ isSubmitted (handleSubmit s) = isSubmitted s
        /\ showPassword (handleSubmit s) = showPassword s).
Proof.
  split; [reflexivity|]. split; [reflexivity|].
  intros k m Hk. split; [reflexivity|]. split; [|reflexivity].
  unfold handleSubmit; cbn [isSubmitted].
  destruct (no_keys (collect_errors (formData s))) eqn:E; [|reflexivity].
  apply no_keys_collect with (k := k) in E. congruence.
Qed.

Lemma handleSubmit_keeps_values_witness :
  validate Email
    (get (formData (handleChange Email (lit "abc") initial)) Email)
  = Some "Invalid email format."
  /\ formData (handleSubmit (handleChange Email (lit "abc") initial))
     = formData (handleChange Email (lit "abc") initial)
  /\ isSubmitted (handleSubmit (handleChange Email (lit "abc") initial))
     = false.
Proof.
  assert (A : validate Email
                (get (formData (handleChange Email (lit "abc") initial)) Email)
              = Some "Invalid email format.") by (vm_compute; reflexivity).
  pose proof (proj2 (proj2 (handleSubmit_keeps_values _)) Email _ A)
    as (H1 & H2 & _).
  split; [exact A|]. split; [exact H1|exact H2].
Defined.

(** C7. [handleChange] stores the new value under its field and leaves the
    other values, the touched flags, the submitted flag and the password
    toggle alone.  When the field is not touched the error map is left as it
    is, so nothing is shown for the field; when it is touched the field's
    entry becomes [validate]'s result on the new value and the other
    entries stay. *)
Theorem handleChange_spec (s : state) (k : field) (v : jsstring) :
  get (formData (handleChange k v s)) k = v
  /\ (forall k', k' <> k ->
        get (formData (handleChange k v s)) k' = get (formData s) k')
  /\ touched (handleChange k v s) = touched s
  /\ isSubmitted (handleChange k v s) = isSubmitted s
  /\ showPassword (handleChange k v s) = showPassword s
  /\ (touched s !! k <> Some true ->
        errors (handleChange k v s) = errors s
        /\ shown_error (handleChange k v s) k = None)
  /\ (touched s !! k = Some true ->
        errors (handleChange k v s) !! k = Some (validate k v)
        /\ (forall k', k' <> k ->
              errors (handleChange k v s) !! k' = errors s !! k')
        /\ shown_error (handleChange k v s) k = validate k v).
Proof.
  unfold shown_error, handleChange;
    cbn [formData errors touched isSubmitted showPassword].
  split; [apply get_set_eq|]. split; [intros k'; apply get_set_ne|].
  do 3 (split; [reflexivity|]). split.
  - intros H. apply is_touched_false in H. rewrite H. auto.
  - intros H. apply is_touched_true in H. rewrite H.
    split; [apply lookup_insert_eq|].
    split; [intros k' Hk'; apply lookup_insert_ne; congruence|].
    unfold error_at. rewrite lookup_insert_eq. reflexivity.
Qed.

Lemma handleChange_spec_witness :
  touched initial !! Name <> Some true
  /\ errors (handleChange Name (lit "A") initial) = errors initial
  /\ touched (handleBlur Email [] initial) !! Email = Some true
  /\ errors (handleChange Email (lit "a@b.c") (handleBlur Email [] initial))
       !! Email = Some None.
Proof.
  assert (A : touched initial !! Name <> Some true)
    by (vm_compute; discriminate).
  assert (B : touched (handleBlur Email [] initial) !! Email = Some true)
    by (vm_compute; reflexivity).
  split; [exact A|].
  split.
  - exact (proj1 (proj1 (proj2 (proj2 (proj2 (proj2 (proj2
             (handleChange_spec initial Name (lit "A"))))))) A)).
  - split; [exact B|].
    exact (proj1 (proj2 (proj2 (proj2 (proj2 (proj2 (proj2
             (handleChange_spec (handleBlur Email [] initial) Email
                (lit "a@b.c"))))))) B)).
Defined.

Lemma handle_keeps_touched (e : event) (s : state) (k : field) :
  e <> Reset ->
  touched s !! k = Some true -> touched (handle e s) !! k = Some true.
Proof.
  intros He Hk. destruct e as [k' v|k' v| | |]; simpl; try exact Hk.
  - destruct (decide (k' = k)) as [->|Hne].
    + apply lookup_insert_eq.
    + rewrite lookup_insert_ne by exact Hne. exact Hk.
  - apply allTouched_lookup.
  - contradiction.
Qed.

Lemma run_keeps_touched (es : list event) (s : state) (k : field) :
  Reset ∉ es ->
  touched s !! k = Some true -> touched (run es s) !! k = Some true.
Proof.
  revert s. induction es as [|e es IH]; intros s Hes Hk; [exact Hk|].
  apply not_elem_of_cons in Hes as [He Hes].
  apply (IH (handle e s) Hes).
  apply handle_keeps_touched; [congruence|exact Hk].
Qed.

(** C8. [handleBlur] marks the field touched and sets its entry of the
    error map to [validate]'s result on the current value, which is then
    shown.  No event but reset takes a touched flag away, so after a blur
    of a field, and any events but reset, a change of that field sets its
    entry to [validate]'s result on the new value, and that is shown. *)
Theorem handleBlur_spec :
  (forall s k v,
     touched (handleBlur k v s) !! k = Some true
     /\ errors (handleBlur k v s) !! k = Some (validate k v)
     /\ shown_error (handleBlur k v s) k = validate k v)
  /\ (forall e s k, e <> Reset ->
        touched s !! k = Some true -> touched (handle e s) !! k = Some true)
  /\ (forall es s k v v', Reset ∉ es ->
        errors (handleChange k v' (run es (handleBlur k v s))) !! k
        = Some (validate k v')
        /\ shown_error (handleChange k v' (run es (handleBlur k v s))) k
           = validate k v').
Proof.
  split; [|split].
  - intros s k v. unfold shown_error, handleBlur; cbn [touched errors].
    split; [apply lookup_insert_eq|]. split; [apply lookup_insert_eq|].
    unfold is_touched, error_at. rewrite !lookup_insert_eq. reflexivity.
  - exact handle_keeps_touched.
  - intros es s k v v' Hes.
    assert (T : touched (run es (handleBlur k v s)) !! k = Some true).
    { apply run_keeps_touched; [exact Hes|].
      unfold handleBlur; cbn [touched]. apply lookup_insert_eq. }
    destruct (handleChange_spec (run es (handleBlur k v s)) k v')
      as (_ & _ & _ & _ & _ & _ & H).
    destruct (H T) as (H1 & _ & H3). auto.
Qed.

Lemma handleBlur_spec_witness :
  (Reset ∉ [Change Name (lit "Ann"); Submit; TogglePassword])
  /\ shown_error
       (handleChange Email (lit "a@b")
          (run [Change Name (lit "Ann"); Submit; TogglePassword]
               (handleBlur Email (lit "a@b.c") initial)))
       Email
     = validate Email (lit "a@b").
Proof.
  assert (A : Reset ∉ [Change Name (lit "Ann"); Submit; TogglePassword]).
  { rewrite !not_elem_of_cons. repeat split; try discriminate.
    apply not_elem_of_nil. }
  split; [exact A|].
  exact (proj2 (proj2 (proj2 handleBlur_spec) _ initial Email
                      (lit "a@b.c") (lit "a@b") A)).
Defined.

(** Reset leaves the password toggle, which is no part of the form state,
    as it was. *)
Lemma handleReset_showPassword (s : state) :
  showPassword (handleReset s) = showPassword s.
Proof. reflexivity. Qed.

(** C9. From the submitted view, [handleReset] sets the four values to the
    empty string, empties the error map and the touched flags and goes
    back to the editing view: the form state is the initial one again. *)
Theorem handleReset_spec (s : state) :
  phase_of s = submitted ->
  (forall k, get (formData (handleReset s)) k = [])
  /\ errors (handleReset s) = ∅
  /\ touched (handleReset s) = ∅
  /\ phase_of (handleReset s) = editing
  /\ form_state (handleReset s) = form_state initial.
Proof.
  intros _. split; [intros []; reflexivity|]. repeat split; reflexivity.
Qed.

Lemma handleReset_spec_witness :
  phase_of
    (run [Change Name (lit "Ann"); Change Email (lit "a@b.c");
          Change Phone (lit "123 456 7890"); Blur Phone (lit "123 456 7890");
          Change Password (lit "Abcdef1!"); Submit] initial)
  = submitted
  /\ form_state
       (handleReset
          (run [Change Name (lit "Ann"); Change Email (lit "a@b.c");
                Change Phone (lit "123 456 7890");
                Blur Phone (lit "123 456 7890");
                Change Password (lit "Abcdef1!"); Submit] initial))
     = form_state initial.
Proof.
  assert (A : phase_of
    (run [Change Name (lit "Ann"); Change Email (lit "a@b.c");
          Change Phone (lit "123 456 7890"); Blur Phone (lit "123 456 7890");
          Change Password (lit "Abcdef1!"); Submit] initial)
  = submitted) by (vm_compute; reflexivity).
  split; [exact A|].
  exact (proj2 (proj2 (proj2 (proj2 (handleReset_spec _ A))))).
Defined.

(** * Further properties of the validator *)

Lemma space_range (c : code_unit) :
  is_space c = true ->
  (9 ≤ c ≤ 13 \/ c = 32 \/ 160 ≤ c)%N.
Proof.
  unfold is_space.
  rewrite !orb_true_iff, !andb_true_iff, !N.leb_le, !N.eqb_eq. lia.
Qed.

Lemma not_space_between (c : code_unit) :
  (33 ≤ c ≤ 159)%N -> is_space c = false.
Proof.
  intros H. destruct (is_space c) eqn:E; [|reflexivity].
  apply space_range in E. lia.
Qed.

Lemma not_blank_elem (v : jsstring) (c : code_unit) :
  c ∈ v -> is_space c = false -> ~ blank v.
Proof.
  intros Hin Hc Hb. unfold blank in Hb.
  rewrite Forall_forall in Hb. specialize (Hb c Hin). congruence.
Qed.

Lemma validate_name_cases (v : jsstring) :
  validate Name v = if truthy (trim v) then None else Some msg_name_required.
Proof. reflexivity. Qed.

(** X1. The name rule looks at the trimmed value: a name passes exactly
    when some code unit of it is not white space, and gets "Name is
    required." otherwise (an all-blank name counts as missing). *)
Theorem validate_name_spec (v : jsstring) :
  (validate Name v = None <-> ~ blank v)
  /\ (validate Name v = Some "Name is required." <-> blank v).
Proof.
  rewrite validate_name_cases, <- trim_nil. unfold msg_name_required.
  destruct (trim v); simpl; split; split; try congruence; tauto.
Qed.

Lemma validate_password_below_8 (v : jsstring) :
  v <> [] -> (length v < 8)%nat ->
  validate Password v = Some msg_password_length.
Proof.
  intros Hne Hl. unfold validate.
  rewrite (validate_nonempty_cases v Hne). simpl negb. cbv iota.
  assert (E : Nat.ltb (length v) 8 = true) by (apply Nat.ltb_lt; exact Hl).
  rewrite E. reflexivity.
Qed.

Lemma validate_password_none (v : jsstring) :
  validate Password v = None <->
  (8 <= length v)%nat /\ has_lowercase v /\ has_uppercase v
  /\ has_decimal_digit v /\ has_special v.
Proof.
  destruct (le_lt_dec 8 (length v)) as [Hl|Hl].
  - rewrite (validate_password_long v Hl).
    rewrite <- search_lower, <- search_upper, <- search_digit, <- search_special.
    destruct (test_search (Class is_lower) v),
             (test_search (Class is_upper) v),
             (test_search (Class is_digit) v),
             (test_search (Class is_special) v);
      simpl; intuition congruence.
  - split; [|lia]. intros H. exfalso. destruct v as [|c v].
    + discriminate H.
    + rewrite validate_password_below_8 in H by (congruence || exact Hl).
      discriminate.
Qed.

(** X2. The password rule in full: a password passes exactly when it has
    at least 8 code units and holds a lowercase letter, an uppercase letter,
    a decimal digit and one of [@$!%*?&]; and the length check comes before
    the class checks, so a non-empty password of fewer than 8 code units
    gets the length message whatever classes it holds. *)
Theorem validate_password_accepts (v : jsstring) :
  (validate Password v = None <->
   (8 <= length v)%nat /\ has_lowercase v /\ has_uppercase v
   /\ has_decimal_digit v /\ has_special v)
  /\ (v <> [] -> (length v < 8)%nat ->
      validate Password v
      = Some "Password must be at least 8 characters long.").
Proof.
  split; [apply validate_password_none|apply validate_password_below_8].
Qed.

Lemma validate_password_accepts_witness :
  lit "Ab1!" <> [] /\ (length (lit "Ab1!") < 8)%nat
  /\ validate Password (lit "Ab1!")
     = Some "Password must be at least 8 characters long.".
Proof.
  assert (A : lit "Ab1!" <> []) by (vm_compute; discriminate).
  assert (B : (length (lit "Ab1!") < 8)%nat) by (vm_compute; lia).
  split; [exact A|]. split; [exact B|].
  exact (proj2 (validate_password_accepts _) A B).
Defined.

(** X3. [validate] never answers with the empty string, so the [if (error)]
    tests of the two [reduce] calls take a result for an error exactly when
    it is a message. *)
Theorem validate_message_not_empty (k : field) (v : jsstring) :
  validate k v <> Some EmptyString
  /\ (message_truthy (validate k v) = true <-> validate k v <> None).
Proof.
  pose proof (validate_truthy k v) as H. split; [|exact H].
  intros E. rewrite E in H. simpl in H.
  assert (false = true) by (apply H; discriminate). discriminate.
Qed.

Lemma email_shape_first (v : jsstring) :
  email_shape v -> exists c, c ∈ v /\ is_space c = false.
Proof.
  intros (l & d & t & -> & [Hl Fl] & _ & _).
  destruct Fl as [|c l [Hc _] _]; [contradiction|].
  exists c. split; [|exact Hc]. simpl. apply list_elem_of_here.
Qed.

Lemma valid_not_blank (k : field) (v : jsstring) :
  validate k v = None -> ~ blank v.
Proof.
  intros H. destruct k.
  - apply validate_name_spec. exact H.
  - destruct v as [|c0 v0]; [discriminate H|].
    rewrite validate_email_nonempty in H by discriminate.
    destruct (test_anchored email_re (c0 :: v0)) eqn:E; [|discriminate].
    apply email_re_shape, email_shape_first in E as (c & Hin & Hc).
    exact (not_blank_elem _ c Hin Hc).
  - destruct v as [|c0 v0]; [discriminate H|].
    rewrite validate_phone_nonempty in H by discriminate.
    destruct (test_anchored phone_re (remove_whitespace (c0 :: v0))) eqn:E;
      [|discriminate].
    apply phone_re_shape in E as [[Hl _] _].
    destruct (remove_whitespace (c0 :: v0)) as [|c w] eqn:Ew;
      [simpl in Hl; lia|].
    assert (Hin : c ∈ remove_whitespace (c0 :: v0))
      by (rewrite Ew; apply list_elem_of_here).
    apply remove_whitespace_spec in Hin as [Hin Hc].
    exact (not_blank_elem _ c Hin Hc).
  - apply validate_password_none in H as (_ & Hlow & _).
    apply Exists_exists in Hlow as (c & Hin & Hc).
    apply (not_blank_elem _ c Hin). apply not_space_between. lia.
Qed.

(** X4. A value that passes a field's validation is never blank: its trim
    is not the empty string. *)
Theorem valid_value_not_blank (k : field) (v : jsstring) :
  validate k v = None -> trim v <> [] /\ v <> [].
Proof.
  intros H. pose proof (valid_not_blank k v H) as Hb.
  split; [rewrite trim_nil; exact Hb|].
  intros ->. apply Hb. constructor.
Qed.

Lemma valid_value_not_blank_witness :
  validate Phone (lit " 12345 67890 ") = None
  /\ trim (lit " 12345 67890 ") <> [].
Proof.
  assert (A : validate Phone (lit " 12345 67890 ") = None)
    by (vm_compute; reflexivity).
  split; [exact A|]. exact (proj1 (valid_value_not_blank _ _ A)).
Defined.

Lemma email_part_no_at (l : jsstring) :
  email_part l -> count_occ N.eq_dec l 64%N = 0%nat.
Proof.
  intros [_ F]. induction F as [|c l [_ Hc] _ IH]; [reflexivity|].
  simpl. destruct (N.eq_dec c 64); [congruence|exact IH].
Qed.

Lemma email_part_no_space (l : jsstring) :
  email_part l -> Forall (fun c => is_space c = false) l.
Proof.
  intros [_ F]. eapply Forall_impl; [exact F|]. intros c [Hc _]. exact Hc.
Qed.

Lemma email_part_length (l : jsstring) : email_part l -> (1 <= length l)%nat.
Proof. intros [Hne _]. destruct l; [contradiction|simpl; lia]. Qed.

Lemma validate_email_none (v : jsstring) :
  validate Email v = None <-> email_shape v.
Proof.
  destruct v as [|c v].
  - split; [discriminate|].
    intros (l & d & t & E & _). destruct l; discriminate E.
  - rewrite validate_email_nonempty by discriminate.
    rewrite <- email_re_shape.
    destruct (test_anchored email_re (c :: v)); split; congruence.
Qed.

(** X5. What the email rule never lets through: an address that passes has
    no white space, exactly one [@], and at least five code units. *)
Theorem validate_email_accepts_only (v : jsstring) :
  validate Email v = None ->
  Forall (fun c => is_space c = false) v
  /\ count_occ N.eq_dec v 64%N = 1%nat
  /\ (5 <= length v)%nat.
Proof.
  intros H. apply validate_email_none in H as (l & d & t & -> & Hl & Hd & Ht).
  split; [|split].
  - repeat (apply Forall_app; split);
      try (apply email_part_no_space; assumption);
      repeat constructor.
  - rewrite !count_occ_app. change (@count_occ code_unit) with (@count_occ N).
    rewrite (email_part_no_at l Hl), (email_part_no_at d Hd),
      (email_part_no_at t Ht). reflexivity.
  - pose proof (email_part_length l Hl). pose proof (email_part_length d Hd).
    pose proof (email_part_length t Ht). rewrite !length_app. simpl.
    unfold code_unit in *. lia.
Qed.

Lemma validate_email_accepts_only_witness :
  validate Email (lit "you@example.com") = None
  /\ count_occ N.eq_dec (lit "you@example.com") 64%N = 1%nat.
Proof.
  assert (A : validate Email (lit "you@example.com") = None)
    by (vm_compute; reflexivity).
  split; [exact A|]. exact (proj1 (proj2 (validate_email_accepts_only _ A))).
Defined.

Lemma digit_or_space_kept (v : jsstring) :
  Forall (fun c => (48 ≤ c ≤ 57)%N) (remove_whitespace v)
  <-> Forall (fun c => (48 ≤ c ≤ 57)%N \/ is_space c = true) v.
Proof.
  unfold remove_whitespace. induction v as [|c v IH].
  - split; constructor.
  - unfold jsstring, code_unit in *. rewrite filter_cons. case_decide as Hc.
    + rewrite !Forall_cons, IH. split; [tauto|].
      intros [[H|H] F]; [tauto|congruence].
    + rewrite Forall_cons, IH. split; [|tauto].
      intros F. split; [|exact F]. right. destruct (is_space c); congruence.
Qed.

Lemma remove_whitespace_digits (v : jsstring) :
  Forall (fun c => (48 ≤ c ≤ 57)%N \/ is_space c = true) v ->
  remove_whitespace v = filter (fun c => (48 ≤ c ≤ 57)%N) v.
Proof.
  unfold remove_whitespace. induction 1 as [|c v Hc _ IH]; [reflexivity|].
  unfold jsstring, code_unit in *. rewrite !filter_cons, IH.
  destruct Hc as [Hc|Hc].
  - rewrite decide_True by (apply not_space_between; lia).
    rewrite decide_True by exact Hc. reflexivity.
  - rewrite decide_False by congruence.
    rewrite decide_False by (apply space_range in Hc; lia). reflexivity.
Qed.

Lemma validate_phone_none (v : jsstring) :
  validate Phone v = None <-> v <> [] /\ phone_shape (remove_whitespace v).
Proof.
  destruct v as [|c v].
  - split; [discriminate|]. intros [H _]. contradiction.
  - rewrite validate_phone_nonempty by discriminate.
    rewrite <- phone_re_shape.
    destruct (test_anchored phone_re (remove_whitespace (c :: v)));
      split; try congruence; [split; [discriminate|reflexivity]|].
    intros [_ H]. discriminate.
Qed.

(** X6. The phone rule by code units: a phone number passes exactly when
    every code unit is a decimal digit or white space and there are 10 to
    15 digits; so a sign, a bracket or a hyphen makes it fail. *)
Theorem validate_phone_accepts (v : jsstring) :
  validate Phone v = None <->
  Forall (fun c => (48 ≤ c ≤ 57)%N \/ is_space c = true) v
  /\ (10 <= count_digits v <= 15)%nat.
Proof.
  rewrite validate_phone_none. unfold phone_shape, count_digits.
  rewrite digit_or_space_kept. split.
  - intros (_ & Hl & F). rewrite <- (remove_whitespace_digits v F). auto.
  - intros (F & Hl). rewrite (remove_whitespace_digits v F).
    split; [|auto]. intros ->. simpl in Hl. lia.
Qed.

Example validate_phone_plus :
  validate Phone (lit "+1234567890") = Some "Phone must be 10 to 15 digits.".
Proof. vm_compute. reflexivity. Qed.

(** * Further properties of the form *)

Lemma isFormValid_no_keys (d : FormState) :
  isFormValid d = no_keys (collect_errors d).
Proof.
  apply eq_true_iff_eq. rewrite isFormValid_spec, no_keys_collect.
  split; [tauto|]. intros H. split; [exact H|].
  intros k. rewrite trim_nil. apply (valid_not_blank k). apply H.
Qed.

(** X7. The blank check of [isFormValid] adds nothing to its validation
    check, so the submit button is enabled exactly when a submit would go
    through: from the form view, the button is enabled iff [handleSubmit]
    moves to the success screen. *)
Theorem submit_enabled_iff_submit_succeeds (s : state) :
  isFormValid (formData s) = no_keys (collect_errors (formData s))
  /\ (phase_of s = editing ->
      (submit_disabled s = false <-> phase_of (handleSubmit s) = submitted)).
Proof.
  split; [apply isFormValid_no_keys|].
  unfold submit_disabled, phase_of, handleSubmit; cbn [isSubmitted formData].
  rewrite isFormValid_no_keys.
  destruct (isSubmitted s); [discriminate|]. intros _.
  destruct (no_keys (collect_errors (formData s))); simpl; split; congruence.
Qed.

Lemma submit_enabled_iff_submit_succeeds_witness :
  phase_of (run [Change Name (lit "Ann"); Change Email (lit "a@b.c");
                 Change Phone (lit "1234567890");
                 Change Password (lit "Abcdef1!")] initial) = editing
  /\ submit_disabled
       (run [Change Name (lit "Ann"); Change Email (lit "a@b.c");
             Change Phone (lit "1234567890");
             Change Password (lit "Abcdef1!")] initial) = false
  /\ phase_of
       (handleSubmit
          (run [Change Name (lit "Ann"); Change Email (lit "a@b.c");
                Change Phone (lit "1234567890");
                Change Password (lit "Abcdef1!")] initial)) = submitted.
Proof.
  assert (A : phase_of (run [Change Name (lit "Ann"); Change Email (lit "a@b.c");
                 Change Phone (lit "1234567890");
                 Change Password (lit "Abcdef1!")] initial) = editing)
    by (vm_compute; reflexivity).
  assert (B : submit_disabled
       (run [Change Name (lit "Ann"); Change Email (lit "a@b.c");
             Change Phone (lit "1234567890");
             Change Password (lit "Abcdef1!")] initial) = false)
    by (vm_compute; reflexivity).
  split; [exact A|]. split; [exact B|].
  exact (proj1 (proj2 (submit_enabled_iff_submit_succeeds _) A) B).
Defined.

(** X8. The error map that the [reduce] of [handleSubmit] builds has a key
    exactly for the fields that fail, holds that field's message under it,
    and never holds [undefined]. *)
Theorem collect_errors_keys (d : FormState) (k : field) :
  (k ∈ dom (collect_errors d) <-> validate k (get d k) <> None)
  /\ collect_errors d !! k <> Some None
  /\ (forall m, collect_errors d !! k = Some (Some m)
                <-> validate k (get d k) = Some m).
Proof.
  pose proof (collect_errors_lookup d k) as L. rewrite elem_of_dom.
  unfold message in *.
  destruct (validate k (get d k)) as [m|]; rewrite !L.
  - split; [split; [intros _; discriminate|eauto]|].
    split; [discriminate|]. intros m'. split; congruence.
  - split; [split; [intros [x Hx]; discriminate Hx|congruence]|].
    split; [discriminate|]. intros m'. split; congruence.
Qed.

(** X9. [handleBlur] touches one field only: the values, the submitted
    flag and the password toggle stay, and so do the error entry, the
    touched flag and the shown error of every other field, and the state of
    the submit button. *)
Theorem handleBlur_frame (s : state) (k : field) (v : jsstring) :
  formData (handleBlur k v s) = formData s
  /\ isSubmitted (handleBlur k v s) = isSubmitted s
  /\ showPassword (handleBlur k v s) = showPassword s
  /\ submit_disabled (handleBlur k v s) = submit_disabled s
  /\ (forall k', k' <> k ->
        errors (handleBlur k v s) !! k' = errors s !! k'
        /\ touched (handleBlur k v s) !! k' = touched s !! k'
        /\ shown_error (handleBlur k v s) k' = shown_error s k').
Proof.
  do 4 (split; [reflexivity|]). intros k' Hne.
  unfold shown_error, is_touched, error_at, handleBlur; cbn [errors touched].
  rewrite !lookup_insert_ne by congruence. auto.
Qed.

Lemma handleBlur_frame_witness :
  Name <> Email
  /\ shown_error (handleBlur Email (lit "abc") initial) Name
     = shown_error initial Name.
Proof.
  assert (A : Name <> Email) by discriminate.
  split; [exact A|].
  destruct (handleBlur_frame initial Email (lit "abc"))
    as (_ & _ & _ & _ & H).
  exact (proj2 (proj2 (H Name A))).
Defined.

Lemma set_set (d : FormState) (k : field) (v w : jsstring) :
  set (set d k v) k w = set d k w.
Proof. destruct k; reflexivity. Qed.

Lemma set_comm (d : FormState) (k1 k2 : field) (v1 v2 : jsstring) :
  k1 <> k2 -> set (set d k2 v2) k1 v1 = set (set d k1 v1) k2 v2.
Proof. destruct k1, k2; intros H; try reflexivity; contradiction. Qed.

(** X10. Two changes in a row: on the same field the last value wins, and
    changes of different fields can be swapped. *)
Theorem handleChange_compose (s : state) (k1 k2 : field) (v1 v2 : jsstring) :
  handleChange k1 v2 (handleChange k1 v1 s) = handleChange k1 v2 s
  /\ (k1 <> k2 ->
      handleChange k1 v1 (handleChange k2 v2 s)
      = handleChange k2 v2 (handleChange k1 v1 s)).
Proof.
  unfold handleChange; cbn [formData errors touched showPassword isSubmitted].
  split.
  - rewrite set_set. destruct (is_touched (touched s) k1);
      [rewrite insert_insert_eq|]; reflexivity.
  - intros Hne. rewrite (set_comm _ k1 k2) by exact Hne.
    destruct (is_touched (touched s) k1), (is_touched (touched s) k2);
      try reflexivity.
    rewrite (insert_insert_ne _ k1 k2) by exact Hne. reflexivity.
Qed.

Lemma handleChange_compose_witness :
  Name <> Phone
  /\ handleChange Name (lit "Ann") (handleChange Phone (lit "123") initial)
     = handleChange Phone (lit "123") (handleChange Name (lit "Ann") initial).
Proof.
  assert (A : Name <> Phone) by discriminate.
  split; [exact A|].
  exact (proj2 (handleChange_compose initial Name Phone
                  (lit "Ann") (lit "123")) A).
Defined.

(** X11. Submitting twice is submitting once. *)
Theorem handleSubmit_idempotent (s : state) :
  handleSubmit (handleSubmit s) = handleSubmit s.
Proof.
  unfold handleSubmit; cbn [formData isSubmitted showPassword].
  destruct (no_keys (collect_errors (formData s))); reflexivity.
Qed.

Lemma handle_showPassword (e : event) (s : state) :
  showPassword (handle e s)
  = match e with
    | TogglePassword => negb (showPassword s)
    | _ => showPassword s
    end.
Proof. destruct e; reflexivity. Qed.

(** X12. Only the toggle button changes the password visibility: after any
    events, reset among them, the password is shown iff it was shown
    before and the toggle was clicked an even number of times, or it was
    hidden and the toggle was clicked an odd number of times. *)
Theorem showPassword_run (es : list event) (s : state) :
  showPassword (run es s) = xorb (showPassword s) (odd_toggles es).
Proof.
  revert s. induction es as [|e es IH]; intros s.
  - simpl. destruct (showPassword s); reflexivity.
  - change (run (e :: es) s) with (run es (handle e s)).
    rewrite IH, handle_showPassword.
    destruct e; simpl; try reflexivity.
    destruct (showPassword s), (odd_toggles es); reflexivity.
Qed.

(** ** What holds in every state the component can reach *)

Lemma errors_current_initial : errors_current initial.
Proof.
  intros k. simpl. rewrite !lookup_empty.
  split; [right; reflexivity|]. split; [reflexivity|discriminate].
Qed.

Lemma errors_current_handle (s : state) (e : event) :
  errors_current s -> offered s e = true -> errors_current (handle e s).
Proof.
  intros I Ho k. destruct (I k) as (I1 & I2 & I3).
  destruct e as [k' v|k' v| | |]; simpl in *.
  - (* change *)
    split; [exact I1|]. destruct (decide (k' = k)) as [->|Hne].
    + rewrite get_set_eq. split.
      * intros Hn. rewrite (proj2 (is_touched_false _ _)) by congruence. auto.
      * intros Ht. rewrite (proj2 (is_touched_true _ _) Ht).
        unfold error_at. rewrite lookup_insert_eq. reflexivity.
    + rewrite get_set_ne by congruence.
      unfold error_at in *.
      destruct (is_touched (touched s) k');
        rewrite ?lookup_insert_ne by exact Hne; auto.
  - (* blur *)
    apply andb_true_iff in Ho as [_ Hv]. apply bool_decide_eq_true in Hv.
    destruct (decide (k' = k)) as [->|Hne].
    + rewrite !lookup_insert_eq. split; [left; reflexivity|].
      split; [discriminate|]. intros _. unfold error_at.
      rewrite lookup_insert_eq, Hv. reflexivity.
    + unfold error_at in *. rewrite !lookup_insert_ne by exact Hne. auto.
  - (* submit *)
    rewrite allTouched_lookup. split; [left; reflexivity|].
    split; [discriminate|]. intros _. apply collect_errors_at.
  - (* reset *)
    rewrite !lookup_empty. split; [right; reflexivity|].
    split; [reflexivity|discriminate].
  - (* toggle *)
    auto.
Qed.

Lemma reachable_errors_current (s : state) : reachable s -> errors_current s.
Proof.
  induction 1 as [|s e _ IH Ho]; [apply errors_current_initial|].
  apply errors_current_handle; assumption.
Qed.

Lemma reachable_shown_error_aux (s : state) :
  reachable s ->
  forall k,
    (touched s !! k <> Some true -> errors s !! k = None)
    /\ (touched s !! k = Some true ->
        shown_error s k = validate k (get (formData s) k))
    /\ shown_error s k = error_at (errors s) k.
Proof.
  intros R k. destruct (reachable_errors_current s R k) as (I1 & I2 & I3).
  unfold shown_error. split; [|split].
  - intros Hn. apply I2. destruct I1; [contradiction|assumption].
  - intros Ht. rewrite (proj2 (is_touched_true _ _) Ht). apply I3. exact Ht.
  - destruct I1 as [Ht|Hn].
    + rewrite (proj2 (is_touched_true _ _) Ht). reflexivity.
    + rewrite (proj2 (is_touched_false _ _)) by congruence.
      unfold error_at, message in *. rewrite (I2 Hn). reflexivity.
Qed.

(** X13. The shown error is never stale and never hidden: in every state
    the component can reach, an error entry exists only for a touched
    field, and what is shown for a touched field is [validate]'s answer for
    the value the field holds now. *)
Theorem reachable_shown_error (s : state) :
  reachable s ->
  forall k,
    (touched s !! k <> Some true -> errors s !! k = None)
    /\ (touched s !! k = Some true ->
        shown_error s k = validate k (get (formData s) k))
    /\ shown_error s k = error_at (errors s) k.
Proof. apply reachable_shown_error_aux. Qed.

Lemma reachable_shown_error_witness :
  reachable (handle (Change Email (lit "a@b.c"))
               (handle (Blur Email []) initial))
  /\ shown_error (handle (Change Email (lit "a@b.c"))
                    (handle (Blur Email []) initial)) Email
     = error_at (errors (handle (Change Email (lit "a@b.c"))
                           (handle (Blur Email []) initial))) Email.
Proof.
  assert (R : reachable (handle (Change Email (lit "a@b.c"))
                           (handle (Blur Email []) initial))).
  { apply reachable_handle; [|vm_compute; reflexivity].
    apply reachable_handle; [|vm_compute; reflexivity].
    apply reachable_initial. }
  split; [exact R|].
  exact (proj2 (proj2 (reachable_shown_error _ R Email))).
Defined.

(** X14. The success screen is shown only for valid data: in every
    reachable state with [isSubmitted] set, all four values pass
    validation, the error map is empty and all fields are touched. *)
Theorem reachable_submitted_valid (s : state) :
  reachable s -> isSubmitted s = true ->
  (forall k, validate k (get (formData s) k) = None)
  /\ errors s = ∅
  /\ (forall k, touched s !! k = Some true).
Proof.
  induction 1 as [|s e _ IH Ho]; [discriminate|].
  destruct e as [k' v|k' v| | |]; simpl in *.
  - intros Hs. rewrite Hs in Ho. discriminate.
  - intros Hs. rewrite Hs in Ho. discriminate.
  - destruct (isSubmitted s); [discriminate|].
    destruct (no_keys (collect_errors (formData s))) eqn:E; [|discriminate].
    intros _. split; [apply no_keys_collect; exact E|].
    split; [apply no_keys_empty; exact E|apply allTouched_lookup].
  - discriminate.
  - intros Hs. rewrite Hs in Ho. discriminate.
Qed.

Lemma reachable_submitted_valid_witness :
  reachable
    (handle Submit
       (handle (Change Password (lit "Abcdef1!"))
          (handle (Change Phone (lit "1234567890"))
             (handle (Change Email (lit "a@b.c"))
                (handle (Change Name (lit "Ann")) initial)))))
  /\ errors
       (handle Submit
          (handle (Change Password (lit "Abcdef1!"))
             (handle (Change Phone (lit "1234567890"))
                (handle (Change Email (lit "a@b.c"))
                   (handle (Change Name (lit "Ann")) initial))))) = ∅.
Proof.
  assert (R : reachable
    (handle Submit
       (handle (Change Password (lit "Abcdef1!"))
          (handle (Change Phone (lit "1234567890"))
             (handle (Change Email (lit "a@b.c"))
                (handle (Change Name (lit "Ann")) initial)))))).
  { repeat (apply reachable_handle; [|vm_compute; reflexivity]).
    apply reachable_initial. }
  assert (S : isSubmitted
    (handle Submit
       (handle (Change Password (lit "Abcdef1!"))
          (handle (Change Phone (lit "1234567890"))
             (handle (Change Email (lit "a@b.c"))
                (handle (Change Name (lit "Ann")) initial))))) = true)
    by (vm_compute; reflexivity).
  split; [exact R|].
  exact (proj1 (proj2 (reachable_submitted_valid _ R S))).
Defined.

(** X15. The look of an input.  A field that is not touched never gets the
    error look: it gets the success look as soon as its value is non-empty,
    valid or not, and the neutral look while it is empty.  A touched field
    of a reachable state gets the error look when its current value fails
    validation and the success look when it passes, never the neutral
    one. *)
Theorem field_look_spec (s : state) (k : field) :
  (touched s !! k <> Some true ->
   field_look s k
   = if truthy (get (formData s) k)
     then successInputClasses else neutralInputClasses)
  /\ (reachable s -> touched s !! k = Some true ->
      field_look s k
      = match validate k (get (formData s) k) with
        | Some _ => errorInputClasses
        | None => successInputClasses
        end).
Proof.
  unfold field_look, inputClasses, hasError, isTouchedAndValid. split.
  - intros Hn. unfold shown_error.
    rewrite (proj2 (is_touched_false _ _) Hn). simpl.
    destruct (truthy (get (formData s) k)); reflexivity.
  - intros R Ht.
    rewrite (proj1 (proj2 (reachable_shown_error_aux s R k)) Ht).
    pose proof (validate_truthy k (get (formData s) k)) as T.
    destruct (validate k (get (formData s) k)) as [m|] eqn:E.
    + rewrite (proj2 T) by discriminate. reflexivity.
    + simpl. apply valid_not_blank in E.
      destruct (get (formData s) k); [|reflexivity].
      exfalso. apply E. constructor.
Qed.

Lemma field_look_spec_witness :
  touched (handleChange Email (lit "abc") initial) !! Email <> Some true
  /\ validate Email (lit "abc") = Some "Invalid email format."
  /\ field_look (handleChange Email (lit "abc") initial) Email
     = successInputClasses.
Proof.
  assert (A : touched (handleChange Email (lit "abc") initial) !! Email
              <> Some true) by (vm_compute; discriminate).
  split; [exact A|]. split; [vm_compute; reflexivity|].
  exact (proj1 (field_look_spec _ Email) A).
Defined.

Lemma run_typing_only (es : list event) (s : state) :
  Forall typing_only es -> touched s = ∅ ->
  errors (run es s) = errors s /\ touched (run es s) = ∅.
Proof.
  intros F. revert s. induction F as [|e es He _ IH]; intros s Ht; [auto|].
  change (run (e :: es) s) with (run es (handle e s)).
  destruct e as [k v|k v| | |]; try contradiction; simpl handle.
  - destruct (IH (handleChange k v s) Ht) as [E T]. split; [|exact T].
    rewrite E. unfold handleChange; cbn [errors].
    unfold is_touched. rewrite Ht, lookup_empty. reflexivity.
  - exact (IH (togglePassword s) Ht).
Qed.

(** X16. Typing alone shows no error: after any number of changes (and
    toggle clicks) on the freshly mounted form, no field is touched, the
    error map is still empty and nothing is shown for any field, whatever was
    typed. *)
Theorem typing_shows_no_error (es : list event) :
  Forall typing_only es ->
  errors (run es initial) = ∅
  /\ touched (run es initial) = ∅
  /\ forall k, shown_error (run es initial) k = None.
Proof.
  intros F. destruct (run_typing_only es initial F eq_refl) as [E T].
  split; [exact E|]. split; [exact T|].
  intros k. unfold shown_error, is_touched. rewrite T, lookup_empty.
  reflexivity.
Qed.

Lemma typing_shows_no_error_witness :
  Forall typing_only [Change Email (lit "abc"); TogglePassword;
                      Change Phone (lit "1")]
  /\ shown_error (run [Change Email (lit "abc"); TogglePassword;
                       Change Phone (lit "1")] initial) Email = None.
Proof.
  assert (A : Forall typing_only [Change Email (lit "abc"); TogglePassword;
                                  Change Phone (lit "1")])
    by (repeat constructor).
  split; [exact A|].
  exact (proj2 (proj2 (typing_shows_no_error _ A)) Email).
Defined.
